(** * QueryAthena: submit, poll, fetch and assemble

    A shallow embedding of [query.py] (class [QueryAthena]) and the
    properties of its specification.

    The three external collaborators of the class are not part of the
    repository: the Athena client, the S3 client and the pandas CSV reader.
    They are gathered in a record [world] whose fields give the answer of
    each call; the Python code that uses them is embedded in a small
    state-and-exception monad over the local file system, a counter of
    status fetches and the trace of observable events. *)

From Stdlib Require Import String Ascii NArith List Lia.
From stdpp Require Import base option list strings gmap.

Open Scope string_scope.
Open Scope list_scope.

(** ** Python exceptions *)

(** [e.response] of a botocore [ClientError]: the handler of
    [process_result] reads [e.response['Error']['Code']]. *)
Record ErrorT := { Code : string }.
Record error_response := { Error : ErrorT }.

(** The classes under [Exception] the program raises, catches or lets
    through.  [ClientError] stands for [botocore.exceptions.ClientError]
    and its subclasses.  Signals that are not instances of [Exception]
    (KeyboardInterrupt, SystemExit) are not exceptions of this model. *)
Inductive exc_class :=
| Exception
| TypeError
| KeyError
| ValueError
| FileNotFoundError
| ClientError (response : error_response)
| OtherError (cls : string).

(** An exception instance: its class and [str(e)]. *)
Record exc := { exc_cls : exc_class; exc_str : string }.

(** ** Data of the external services *)

(** Response of [start_query_execution]; [None] at type
    [option StartQueryExecutionOutput] is Python's [None]. *)
Record StartQueryExecutionOutput := { QueryExecutionId : string }.

(** [get_query_execution(...)['QueryExecution']['Status']]: [State] is
    always present, [StateChangeReason] is an optional member of the
    dictionary. *)
Record QueryExecutionStatus :=
  { State : string; StateChangeReason : option string }.
Record QueryExecutionT := { Status : QueryExecutionStatus }.
Record GetQueryExecutionOutput := { QueryExecution : QueryExecutionT }.

(** A pandas data frame: named columns and the records in row order; a
    record maps a column name to the text of its cell. *)
Record DataFrame :=
  { columns : list string; rows : list (gmap string string) }.

Definition nrows (df : DataFrame) : nat := length (rows df).

(** The answer of a collaborator: a value, or the exception it raises. *)
Inductive reply (A : Type) :=
| Ok (a : A)
| Fails (e : exc).
Arguments Ok {A} a.
Arguments Fails {A} e.

(** The collaborators.
    - [start_query_execution QueryString Database OutputLocation];
    - [get_query_execution QueryExecutionId n]: the answer to the fetch that
      comes after [n] earlier fetches;
    - [download_file Bucket Key]: the body of the object, which the client
      stores under [Filename];
    - [read_csv body chunksize]: what [pd.read_csv(path, chunksize=...)] does
      on a file of that content: it raises, or it gives an iterator whose
      items are the chunks, an item [Fails e] being a parse error raised
      when the iterator reaches it. *)
Record world :=
  { start_query_execution :
      string -> string -> string -> reply StartQueryExecutionOutput;
    get_query_execution : string -> nat -> reply GetQueryExecutionOutput;
    download_file : string -> string -> reply string;
    read_csv : string -> N -> reply (list (reply DataFrame)) }.

(** ** State, events and the monad *)

Inductive event :=
| EStartQuery (QueryString Database OutputLocation : string)
| EGetQuery (QueryExecutionId : string)
| EDownload (Bucket Key Filename : string)
| ERemove (path : string)
| EPrint (line : string)
| ELogInfo (msg : string)
| ESleep (secs : nat).

Record state :=
  { fs : gmap string string;   (* local files: name to content *)
    polls : nat;               (* status fetches made so far *)
    trace : list event }.      (* events, oldest first *)

Inductive outcome (A : Type) :=
| Return (a : A)
| Raise (e : exc)
| OutOfFuel.
Arguments Return {A} a.
Arguments Raise {A} e.
Arguments OutOfFuel {A}.

Definition M (A : Type) : Type := state -> outcome A * state.

Definition ret {A} (a : A) : M A := fun s => (Return a, s).
Definition raise {A} (e : exc) : M A := fun s => (Raise e, s).
Definition out_of_fuel {A} : M A := fun s => (OutOfFuel, s).

Definition bind {A B} (m : M A) (k : A -> M B) : M B :=
  fun s =>
    match m s with
    | (Return a, s') => k a s'
    | (Raise e, s') => (Raise e, s')
    | (OutOfFuel, s') => (OutOfFuel, s')
    end.

(** The monad is registered with stdpp's notations:
    [x ← m; k] binds and [m;; k] sequences. *)
#[global] Instance M_ret : MRet M := @ret.
#[global] Instance M_bind : MBind M := fun A B k m => bind m k.

(** [try: m  except Exception as e: h e] *)
Definition try_except {A} (m : M A) (h : exc -> M A) : M A :=
  fun s =>
    match m s with
    | (Raise e, s') => h e s'
    | r => r
    end.

(** [try: m  finally: f] *)
Definition try_finally {A} (m : M A) (f : M unit) : M A :=
  fun s =>
    match m s with
    | (Return a, s') => bind f (fun _ => ret a) s'
    | (Raise e, s') => bind f (fun _ => raise e) s'
    | (OutOfFuel, s') => (OutOfFuel, s')
    end.

Definition of_reply {A} (r : reply A) : M A :=
  match r with
  | Ok a => ret a
  | Fails e => raise e
  end.

Definition emit (e : event) : M unit :=
  fun s =>
    (Return tt, {| fs := fs s; polls := polls s; trace := trace s ++ [e] |}).

Definition print (line : string) : M unit := emit (EPrint line).
Definition logger_info (msg : string) : M unit := emit (ELogInfo msg).
Definition time_sleep (secs : nat) : M unit := emit (ESleep secs).

(** ** Calls to the collaborators *)

Definition athena_start_query_execution (w : world)
    (QueryString Database OutputLocation : string)
  : M StartQueryExecutionOutput :=
  emit (EStartQuery QueryString Database OutputLocation);;
  of_reply (start_query_execution w QueryString Database OutputLocation).

Definition athena_get_query_execution (w : world) (QueryExecutionId : string)
  : M GetQueryExecutionOutput :=
  fun s =>
    of_reply (get_query_execution w QueryExecutionId (polls s))
      {| fs := fs s;
         polls := S (polls s);
         trace := trace s ++ [EGetQuery QueryExecutionId] |}.

(** [download_file] stores the object under [Filename] when it succeeds and
    leaves the file system as it was when it fails. *)
Definition s3_download_file (w : world) (Bucket Key Filename : string)
  : M unit :=
  emit (EDownload Bucket Key Filename);;
  body ← of_reply (download_file w Bucket Key);
  (fun s =>
     (Return tt,
      {| fs := <[Filename := body]> (fs s);
         polls := polls s;
         trace := trace s |})) : M unit.

Definition pd_read_csv (w : world) (path : string) (chunksize : N)
  : M (list (reply DataFrame)) :=
  fun s =>
    match fs s !! path with
    | Some body => of_reply (read_csv w body chunksize) s
    | None =>
        (Raise {| exc_cls := FileNotFoundError;
                  exc_str := "[Errno 2] No such file or directory: '"
                             +:+ path +:+ "'" |}, s)
    end.

Definition os_remove (path : string) : M unit :=
  fun s =>
    match fs s !! path with
    | Some _ =>
        (Return tt,
         {| fs := delete path (fs s);
            polls := polls s;
            trace := trace s ++ [ERemove path] |})
    | None =>
        (Raise {| exc_cls := FileNotFoundError;
                  exc_str := "[Errno 2] No such file or directory: '"
                             +:+ path +:+ "'" |}, s)
    end.

(** [pd.concat(objs)]: an empty sequence is refused; otherwise the rows
    follow one another in the order of [objs], and the columns are those of
    the frames in order of first appearance. *)
Definition pd_concat (objs : list DataFrame) : M DataFrame :=
  match objs with
  | [] =>
      raise {| exc_cls := ValueError;
               exc_str := "No objects to concatenate" |}
  | _ :: _ =>
      ret {| columns :=
               foldl (fun acc df => acc ++ list_difference (columns df) acc)
                     [] objs;
             rows := concat (map rows objs) |}
  end.

(** [res['QueryExecutionId']] where [res] may be [None]. *)
Definition subscript_QueryExecutionId (res : option StartQueryExecutionOutput)
  : M string :=
  match res with
  | Some r => ret (QueryExecutionId r)
  | None =>
      raise {| exc_cls := TypeError;
               exc_str := "'NoneType' object is not subscriptable" |}
  end.

(** [query_status['StateChangeReason']] *)
Definition subscript_StateChangeReason (query_status : QueryExecutionStatus)
  : M string :=
  match StateChangeReason query_status with
  | Some reason => ret reason
  | None =>
      raise {| exc_cls := KeyError; exc_str := "'StateChangeReason'" |}
  end.

(** ** The class *)

Record QueryAthena :=
  { s3_bucket : string;
    s3_output : string;
    database : string;
    table : string }.

Definition dquote : string := String "034"%char EmptyString.
Definition newline : string := String "010"%char EmptyString.

Section Methods.

Variable w : world.
Variable self : QueryAthena.

Definition load_conf (query : string) : M (option StartQueryExecutionOutput) :=
  try_except
    (response ← athena_start_query_execution w
                   query (database self) (s3_output self);
     print ("Execution ID: " +:+ QueryExecutionId response);;
     ret (Some response))
    (fun e =>
       print (exc_str e);;
       ret None).

(** [query_state == lit] where [query_state] is [None] or a string. *)
Definition py_eq (query_state : option string) (lit : string) : bool :=
  match query_state with
  | Some v => String.eqb v lit
  | None => false
  end.

Definition is_None {A} (v : option A) : bool :=
  match v with
  | Some _ => false
  | None => true
  end.

(** The message built at lines 62-63. *)
Definition stopped_message (query query_state reason : string) : string :=
  "Athena query with the string " +:+ dquote +:+ query +:+ dquote
  +:+ " stopped with status " +:+ query_state
  +:+ ". More details: " +:+ reason.

(** The [while] loop of [run_query] (lines 57-66).  [fuel] bounds the number
    of times the loop condition is evaluated; the result [tt] is the exit of
    the loop, by [break] or by a false condition. *)
Fixpoint poll_loop (fuel : nat) (query : string)
    (res : option StartQueryExecutionOutput) (query_state : option string)
  : M unit :=
  match fuel with
  | O => out_of_fuel
  | S fuel' =>
      if py_eq query_state "QUEUED" || py_eq query_state "RUNNING"
         || is_None query_state
      then
        id ← subscript_QueryExecutionId res;
        out ← athena_get_query_execution w id;
        let query_status := Status (QueryExecution out) in
        let query_state := State query_status in
        logger_info query_state;;
        if String.eqb query_state "FAILED"
           || String.eqb query_state "CANCELLED"
        then
          reason ← subscript_StateChangeReason query_status;
          raise {| exc_cls := Exception;
                   exc_str := stopped_message query query_state reason |}
        else if String.eqb query_state "SUCCEEDED"
        then ret tt
        else
          time_sleep 1;;
          poll_loop fuel' query res (Some query_state)
      else ret tt
  end.

Definition run_query (fuel : nat) (query : string)
  : M (option StartQueryExecutionOutput) :=
  res ← load_conf query;
  poll_loop fuel query res None;;
  print "Query finished.";;
  ret res.

Definition chunk_processing (chunk : DataFrame) : DataFrame := chunk.

(** [for chunk in chunks: df_parts.append(self.chunk_processing(chunk))] *)
Fixpoint for_chunk_in (chunks : list (reply DataFrame))
    (df_parts : list DataFrame) : M (list DataFrame) :=
  match chunks with
  | [] => ret df_parts
  | Ok chunk :: chunks' =>
      for_chunk_in chunks' (df_parts ++ [chunk_processing chunk])
  | Fails e :: _ => raise e
  end.

(** The body of the second [try] of [process_result] (lines 107-112). *)
Definition read_and_concat (file_name : string) : M DataFrame :=
  chunks ← pd_read_csv w file_name 10000000;
  df_parts ← for_chunk_in chunks [];
  pd_concat df_parts.

(** [process_result] (lines 91-115).  The first [try] gives [true] when the
    download went through and [false] when the handler ran, whose
    [return None] is the [else] branch below.  The file name is computed
    ahead of the [try]: the errors of that line are no [ClientError] and
    leave the [try] as they are. *)
Definition process_result (res : option StartQueryExecutionOutput)
  : M (option DataFrame) :=
  id ← subscript_QueryExecutionId res;
  let file_name := id +:+ ".csv" in
  fetched ←
    try_except
      (s3_download_file w (s3_bucket self) file_name file_name;;
       ret true)
      (fun e =>
         match exc_cls e with
         | ClientError response =>
             (if String.eqb (Code (Error response)) "404"
              then print ("Simpson export file not found at %s. "
                          +:+ file_name)
              else print ("Error " +:+ exc_str e
                          +:+ " when trying to fetch file "
                          +:+ file_name +:+ "."));;
             ret false
         | _ => raise e
         end);
  if fetched : bool
  then
    df ← try_finally (read_and_concat file_name) (os_remove file_name);
    ret (Some df)
  else ret None.

Definition create_query (fuel : nat) : M (option DataFrame) :=
  let query :=
    newline +:+ "        SELECT * FROM " +:+ database self +:+ "."
    +:+ table self +:+ newline +:+ "        LIMIT 10" +:+ newline
    +:+ "        " in
  res ← run_query fuel query;
  process_result res.

End Methods.

(** ** Vocabulary of the statements *)

(** [sub in text], Python's substring test. *)
Fixpoint str_in (sub text : string) : bool :=
  String.prefix sub text
  || match text with
     | EmptyString => false
     | String _ text' => str_in sub text'
     end.

(** The five states of the service. *)
Definition vocabulary : list string :=
  ["QUEUED"; "RUNNING"; "SUCCEEDED"; "FAILED"; "CANCELLED"].

(** The states on which the watch goes on. *)
Definition pending (st : QueryExecutionStatus) : bool :=
  String.eqb (State st) "QUEUED" || String.eqb (State st) "RUNNING".

(** The response of [get_query_execution] that carries the status [st]. *)
Definition status_reply (st : QueryExecutionStatus)
  : GetQueryExecutionOutput :=
  {| QueryExecution := {| Status := st |} |}.

(** The service answers the fetches number [n], [n+1], ... for [id] with the
    statuses [sts], in that order. *)
Fixpoint answers (w : world) (id : string) (n : nat)
    (sts : list QueryExecutionStatus) : Prop :=
  match sts with
  | [] => True
  | st :: sts' =>
      get_query_execution w id n = Ok (status_reply st)
      /\ answers w id (S n) sts'
  end.

(** What one turn of the loop on a pending status leaves in the trace. *)
Definition pending_events (id : string) (st : QueryExecutionStatus)
  : list event :=
  [EGetQuery id; ELogInfo (State st); ESleep 1].

(** The events of a successful submission. *)
Definition submit_events (self : QueryAthena) (query id : string)
  : list event :=
  [EStartQuery query (database self) (s3_output self);
   EPrint ("Execution ID: " +:+ id)].

(** The state after [n] more fetches and the events [evs], files kept. *)
Definition after (s : state) (n : nat) (evs : list event) : state :=
  {| fs := fs s; polls := polls s + n; trace := trace s ++ evs |}.

(** The condition of the [while] loop of [run_query]. *)
Definition watching (query_state : option string) : bool :=
  py_eq query_state "QUEUED" || py_eq query_state "RUNNING"
  || is_None query_state.

(** The scratch file of a handle, which is also the key of its blob. *)
Definition scratch (r : StartQueryExecutionOutput) : string :=
  QueryExecutionId r +:+ ".csv".

Definition download_event (self : QueryAthena)
    (r : StartQueryExecutionOutput) : event :=
  EDownload (s3_bucket self) (scratch r) (scratch r).

(** The state once the blob of [r] is stored, and the state once it has
    been consumed and removed. *)
Definition downloaded (self : QueryAthena) (r : StartQueryExecutionOutput)
    (body : string) (s : state) : state :=
  {| fs := <[scratch r := body]> (fs s);
     polls := polls s;
     trace := trace s ++ [download_event self r] |}.

Definition cleaned (self : QueryAthena) (r : StartQueryExecutionOutput)
    (s : state) : state :=
  {| fs := delete (scratch r) (fs s);
     polls := polls s;
     trace := trace s ++ [download_event self r; ERemove (scratch r)] |}.

(** The result of [process_result] from that of its second [try]. *)
Definition table_of (o : outcome DataFrame) : outcome (option DataFrame) :=
  match o with
  | Return df => Return (Some df)
  | Raise e => Raise e
  | OutOfFuel => OutOfFuel
  end.

(** ** Sample collaborators

    Worlds built from fixed answers, on which the statements below are
    evaluated. *)
Module Sample.

Definition runner : QueryAthena :=
  {| s3_bucket := "results-bucket";
     s3_output := "s3://results-bucket/out/";
     database := "db";
     table := "tbl" |}.

Definition handle : StartQueryExecutionOutput :=
  {| QueryExecutionId := "q-1" |}.

Definition status (state : string) (reason : option string)
  : GetQueryExecutionOutput :=
  {| QueryExecution :=
       {| Status := {| State := state; StateChangeReason := reason |} |} |}.

Definition error (cls : exc_class) (msg : string) : exc :=
  {| exc_cls := cls; exc_str := msg |}.

(** A world that answers the n-th status fetch with the n-th element of
    [script] (and with its last element, or RUNNING, ever after). *)
Definition scripted (submission : reply StartQueryExecutionOutput)
    (script : list GetQueryExecutionOutput)
    (object : reply string)
    (reader : reply (list (reply DataFrame))) : world :=
  {| start_query_execution := fun _ _ _ => submission;
     get_query_execution := fun _ n =>
       Ok (nth n script (List.last script (status "RUNNING" None)));
     download_file := fun _ _ => object;
     read_csv := fun _ _ => reader |}.

Definition start : state := {| fs := ∅; polls := 0; trace := [] |}.

Definition row (a b : string) : gmap string string :=
  <["a" := a]> (<["b" := b]> ∅).

Definition chunk1 : DataFrame :=
  {| columns := ["a"; "b"]; rows := [row "1" "2"; row "3" "4"] |}.
Definition chunk2 : DataFrame :=
  {| columns := ["a"; "b"]; rows := [row "5" "6"] |}.

Definition not_found : exc :=
  error (ClientError {| Error := {| Code := "404" |} |})
        ("An error occurred (404) when calling the HeadObject operation: "
         +:+ "Not Found").

Definition refusal : exc :=
  error (ClientError {| Error := {| Code := "AccessDeniedException" |} |})
        ("An error occurred (AccessDeniedException) when calling the "
         +:+ "StartQueryExecution operation").

Definition parse_error : exc :=
  error (OtherError "ParserError")
        "Error tokenizing data. C error: Expected 2 fields in line 4, saw 3".

Definition queued := Status (QueryExecution (status "QUEUED" None)).
Definition running := Status (QueryExecution (status "RUNNING" None)).
Definition succeeded := Status (QueryExecution (status "SUCCEEDED" None)).
Definition failed :=
  Status (QueryExecution (status "FAILED" (Some "Insufficient permissions"))).
Definition paused := Status (QueryExecution (status "PAUSED" None)).

Definition body : string :=
  "a,b" +:+ newline +:+ "1,2" +:+ newline +:+ "3,4" +:+ newline
  +:+ "5,6" +:+ newline.

Definition bad_body : string := body +:+ "7,8,9" +:+ newline.

Definition header_only : string := "a,b" +:+ newline.

(** The query runs and its result is read in two chunks. *)
Definition smooth : world :=
  scripted (Ok handle)
    [status "QUEUED" None; status "RUNNING" None; status "SUCCEEDED" None]
    (Ok body)
    (Ok [Ok chunk1; Ok chunk2]).

(** The query fails after one turn in the queue. *)
Definition denied : world :=
  scripted (Ok handle)
    [status "QUEUED" None; status "FAILED" (Some "Insufficient permissions")]
    (Fails not_found)
    (Ok []).

(** The submission is refused. *)
Definition refused : world :=
  scripted (Fails refusal) [] (Fails not_found) (Ok []).

(** The service reports a state that is not one of the five. *)
Definition odd : world :=
  scripted (Ok handle)
    [status "RUNNING" None; status "PAUSED" None]
    (Fails not_found)
    (Ok []).

(** The result file has a bad line after its first chunk. *)
Definition broken : world :=
  scripted (Ok handle) [status "SUCCEEDED" None]
    (Ok bad_body)
    (Ok [Ok chunk1; Fails parse_error]).

(** The chunk the reader yields on a file that has a header and no data
    row: the columns of the header and no row. *)
Definition no_rows : DataFrame := {| columns := ["a"; "b"]; rows := [] |}.

(** The result file is a header without data rows: the reader yields one
    chunk, which has no row. *)
Definition header_only_file : world :=
  scripted (Ok handle) [status "SUCCEEDED" None]
    (Ok header_only)
    (Ok [Ok no_rows]).

Definition empty_data_error : exc :=
  error (OtherError "EmptyDataError") "No columns to parse from file".

(** The result file is empty: the reader raises when it opens it. *)
Definition empty_file : world :=
  scripted (Ok handle) [status "SUCCEEDED" None]
    (Ok EmptyString)
    (Fails empty_data_error).

End Sample.

(** ** Further vocabulary *)

(** The query text that [create_query] builds (lines 76-79). *)
Definition select_query (self : QueryAthena) : string :=
  newline +:+ "        SELECT * FROM " +:+ database self +:+ "."
  +:+ table self +:+ newline +:+ "        LIMIT 10" +:+ newline
  +:+ "        ".

(** The durations of the sleeps of a trace, oldest first. *)
Definition sleeps (t : list event) : list nat :=
  flat_map (fun e => match e with ESleep secs => [secs] | _ => [] end) t.

(** [isinstance(e, ClientError)] *)
Definition is_ClientError (e : exc) : bool :=
  match exc_cls e with
  | ClientError _ => true
  | _ => false
  end.

(** A state on which the watch of [run_query] neither goes on nor raises:
    it is none of QUEUED, RUNNING, FAILED, CANCELLED. *)
Definition conclusive (query_state : string) : bool :=
  negb (String.eqb query_state "QUEUED" || String.eqb query_state "RUNNING"
        || String.eqb query_state "FAILED"
        || String.eqb query_state "CANCELLED").

(** ** Further sample collaborators *)
Module Scenario.

(** The query stays RUNNING for ever. *)
Definition stuck : world :=
  Sample.scripted (Ok Sample.handle) [] (Fails Sample.not_found) (Ok []).

Definition throttling : exc :=
  Sample.error
    (ClientError {| Error := {| Code := "ThrottlingException" |} |})
    "An error occurred (ThrottlingException): Rate exceeded".

(** The first fetch says QUEUED, the second one is refused. *)
Definition throttled : world :=
  {| start_query_execution := fun _ _ _ => Ok Sample.handle;
     get_query_execution := fun _ n =>
       match n with
       | O => Ok (Sample.status "QUEUED" None)
       | S _ => Fails throttling
       end;
     download_file := fun _ _ => Fails Sample.not_found;
     read_csv := fun _ _ => Ok [] |}.

(** The query is cancelled and the service gives no reason. *)
Definition unexplained : world :=
  Sample.scripted (Ok Sample.handle)
    [Sample.status "RUNNING" None; Sample.status "CANCELLED" None]
    (Fails Sample.not_found) (Ok []).

Definition cancelled :=
  Status (QueryExecution (Sample.status "CANCELLED" None)).

(** The query fails after one turn in the queue and the service gives no
    reason. *)
Definition mute : world :=
  Sample.scripted (Ok Sample.handle)
    [Sample.status "QUEUED" None; Sample.status "FAILED" None]
    (Fails Sample.not_found) (Ok []).

Definition forbidden_error : exc :=
  Sample.error (ClientError {| Error := {| Code := "403" |} |})
    ("An error occurred (403) when calling the HeadObject operation: "
     +:+ "Forbidden").

(** The query succeeds, the blob may not be read. *)
Definition forbidden : world :=
  Sample.scripted (Ok Sample.handle) [Sample.status "SUCCEEDED" None]
    (Fails forbidden_error) (Ok []).

Definition offline_error : exc :=
  Sample.error (OtherError "EndpointConnectionError")
    "Could not connect to the endpoint URL".

(** The query succeeds, the blob store cannot be reached. *)
Definition offline : world :=
  Sample.scripted (Ok Sample.handle) [Sample.status "SUCCEEDED" None]
    (Fails offline_error) (Ok []).

(** The query succeeds at once, the blob is not there. *)
Definition vanished : world :=
  Sample.scripted (Ok Sample.handle) [Sample.status "SUCCEEDED" None]
    (Fails Sample.not_found) (Ok []).

(** A state with two files, one of them under the name of the scratch file
    of [Sample.handle]. *)
Definition cluttered : state :=
  {| fs := <["q-1.csv" := "stale"]> (<["notes.txt" := "keep"]> ∅);
     polls := 0;
     trace := [] |}.

End Scenario.

(** ** Running the monad *)

Ltac run :=
  unfold mbind, M_bind, mret, M_ret, bind, ret, raise, out_of_fuel,
    try_except, try_finally, of_reply, print, logger_info, time_sleep, emit;
  cbn [fst snd fs polls trace orb andb].

Lemma after_after s n evs m evs' :
  after (after s n evs) m evs' = after s (n + m) (evs ++ evs').
Proof.
  unfold after; cbn [fs polls trace].
  by rewrite Nat.add_assoc, (assoc_L (++)).
Qed.

Lemma after_nil s : after s 0 [] = s.
Proof.
  destruct s; unfold after; cbn [fs polls trace].
  by rewrite Nat.add_0_r, app_nil_r.
Qed.

Section Submission.

Variable w : world.
Variable self : QueryAthena.

Lemma load_conf_ok query r s :
  start_query_execution w query (database self) (s3_output self) = Ok r ->
  load_conf w self query s
  = (Return (Some r),
     after s 0 (submit_events self query (QueryExecutionId r))).
Proof.
  intros Hstart.
  unfold load_conf, athena_start_query_execution, after, submit_events.
  run. rewrite Hstart. run.
  by rewrite Nat.add_0_r, <- (assoc_L (++)).
Qed.

(** C4. When the submission call raises an exception [e], [load_conf]
    catches it, prints it and returns [None]: the exception does not reach
    the caller, and nothing else is done. *)
Theorem load_conf_swallows_submission_error query e s :
  start_query_execution w query (database self) (s3_output self) = Fails e ->
  load_conf w self query s
  = (Return None,
     after s 0 [EStartQuery query (database self) (s3_output self);
                EPrint (exc_str e)]).
Proof.
  intros Hstart.
  unfold load_conf, athena_start_query_execution, after.
  run. rewrite Hstart. run.
  by rewrite Nat.add_0_r, <- (assoc_L (++)).
Qed.

End Submission.

(** ** The watch loop *)

Lemma pending_state st :
  pending st = true -> State st = "QUEUED" \/ State st = "RUNNING".
Proof.
  unfold pending. intros H. apply orb_true_iff in H.
  destruct H as [H | H]; apply String.eqb_eq in H; auto.
Qed.

Lemma pending_not_terminal st :
  pending st = true ->
  String.eqb (State st) "FAILED" = false
  /\ String.eqb (State st) "CANCELLED" = false
  /\ String.eqb (State st) "SUCCEEDED" = false.
Proof.
  intros H. destruct (pending_state st H) as [-> | ->]; by vm_compute.
Qed.

Lemma watching_pending st : watching (Some (State st)) = pending st.
Proof. unfold watching, pending, py_eq, is_None. apply orb_false_r. Qed.

Lemma outside_vocabulary v :
  v ∉ vocabulary ->
  String.eqb v "QUEUED" = false /\ String.eqb v "RUNNING" = false
  /\ String.eqb v "SUCCEEDED" = false /\ String.eqb v "FAILED" = false
  /\ String.eqb v "CANCELLED" = false.
Proof.
  unfold vocabulary. intros H.
  repeat (apply not_elem_of_cons in H as [?%String.eqb_neq H]).
  auto.
Qed.

Section Watch.

Variable w : world.
Variable query : string.
Variable r : StartQueryExecutionOutput.

Ltac fetch Hq Hget :=
  cbn [poll_loop]; unfold watching in Hq; rewrite Hq;
  cbn [subscript_QueryExecutionId];
  unfold athena_get_query_execution; run;
  rewrite Hget; run; cbn [status_reply QueryExecution Status].

Lemma poll_step_pending fuel qs st s :
  watching qs = true ->
  get_query_execution w (QueryExecutionId r) (polls s)
  = Ok (status_reply st) ->
  pending st = true ->
  poll_loop w (S fuel) query (Some r) qs s
  = poll_loop w fuel query (Some r) (Some (State st))
      (after s 1 (pending_events (QueryExecutionId r) st)).
Proof.
  intros Hq Hget Hp.
  destruct (pending_not_terminal st Hp) as (Hfa & Hca & Hsu).
  fetch Hq Hget.
  rewrite Hfa, Hca, Hsu. run.
  unfold after, pending_events; cbn [fs polls trace].
  by rewrite Nat.add_1_r, <- !(assoc_L (++)).
Qed.

Lemma poll_loop_pending sts : forall fuel qs s,
  watching qs = true ->
  answers w (QueryExecutionId r) (polls s) sts ->
  forallb pending sts = true ->
  exists qs',
    watching qs' = true
    /\ poll_loop w (length sts + fuel) query (Some r) qs s
       = poll_loop w fuel query (Some r) qs'
           (after s (length sts)
              (sts ≫= pending_events (QueryExecutionId r))).
Proof.
  induction sts as [| st sts IH]; intros fuel qs s Hq Hans Hp.
  - exists qs. split; [done |]. by rewrite after_nil.
  - cbn [answers] in Hans. destruct Hans as [Hget Hans].
    cbn [forallb] in Hp. apply andb_true_iff in Hp as [Hst Hp].
    destruct (IH fuel (Some (State st))
                (after s 1 (pending_events (QueryExecutionId r) st)))
      as (qs' & Hq' & Heq).
    + by rewrite watching_pending.
    + unfold after; cbn [polls]. by rewrite Nat.add_1_r.
    + done.
    + exists qs'. split; [done |].
      cbn [length Nat.add].
      rewrite (poll_step_pending _ qs st s Hq Hget Hst), Heq.
      by rewrite after_after.
Qed.

Lemma poll_step_stopped fuel qs st reason s :
  watching qs = true ->
  get_query_execution w (QueryExecutionId r) (polls s)
  = Ok (status_reply st) ->
  State st = "FAILED" \/ State st = "CANCELLED" ->
  StateChangeReason st = Some reason ->
  poll_loop w (S fuel) query (Some r) qs s
  = (Raise {| exc_cls := Exception;
              exc_str := stopped_message query (State st) reason |},
     after s 1 [EGetQuery (QueryExecutionId r); ELogInfo (State st)]).
Proof.
  intros Hq Hget Hst Hreason.
  fetch Hq Hget.
  assert (String.eqb (State st) "FAILED"
          || String.eqb (State st) "CANCELLED" = true) as ->.
  { destruct Hst as [-> | ->]; by vm_compute. }
  unfold subscript_StateChangeReason. rewrite Hreason. run.
  unfold after; cbn [fs polls trace].
  by rewrite Nat.add_1_r, <- !(assoc_L (++)).
Qed.

Lemma poll_step_succeeded fuel qs st s :
  watching qs = true ->
  get_query_execution w (QueryExecutionId r) (polls s)
  = Ok (status_reply st) ->
  State st = "SUCCEEDED" ->
  poll_loop w (S fuel) query (Some r) qs s
  = (Return tt,
     after s 1 [EGetQuery (QueryExecutionId r); ELogInfo (State st)]).
Proof.
  intros Hq Hget Hst.
  fetch Hq Hget.
  assert (String.eqb (State st) "FAILED"
          || String.eqb (State st) "CANCELLED" = false) as ->.
  { rewrite Hst. by vm_compute. }
  assert (String.eqb (State st) "SUCCEEDED" = true) as ->.
  { rewrite Hst. by vm_compute. }
  run. unfold after; cbn [fs polls trace].
  by rewrite Nat.add_1_r, <- !(assoc_L (++)).
Qed.

Lemma poll_step_unknown fuel qs st s :
  watching qs = true ->
  get_query_execution w (QueryExecutionId r) (polls s)
  = Ok (status_reply st) ->
  State st ∉ vocabulary ->
  poll_loop w (S (S fuel)) query (Some r) qs s
  = (Return tt,
     after s 1
       [EGetQuery (QueryExecutionId r); ELogInfo (State st); ESleep 1]).
Proof.
  intros Hq Hget Hst.
  destruct (outside_vocabulary _ Hst) as (Hqu & Hru & Hsu & Hfa & Hca).
  fetch Hq Hget.
  rewrite Hfa, Hca, Hsu. run.
  unfold py_eq, is_None. rewrite Hqu, Hru. run.
  unfold after; cbn [fs polls trace].
  by rewrite Nat.add_1_r, <- !(assoc_L (++)).
Qed.

End Watch.

(** ** Substrings of the error message *)

Lemma prefix_app sub rest : String.prefix sub (sub +:+ rest) = true.
Proof.
  induction sub as [| a sub IH]; [by destruct rest |].
  change (String a sub +:+ rest) with (String a (sub +:+ rest)).
  cbn [String.prefix]. by destruct (ascii_dec a a).
Qed.

Lemma str_in_here sub rest : str_in sub (sub +:+ rest) = true.
Proof.
  destruct (sub +:+ rest) eqn:E; cbn [str_in];
    rewrite <- E, prefix_app; done.
Qed.

Lemma str_in_later sub pre text :
  str_in sub text = true -> str_in sub (pre +:+ text) = true.
Proof.
  intros H. induction pre as [| a pre IH]; [exact H |].
  change (String a pre +:+ text) with (String a (pre +:+ text)).
  cbn [str_in]. rewrite IH. apply orb_true_r.
Qed.

Lemma str_in_self sub : str_in sub sub = true.
Proof.
  destruct sub as [| a sub]; [reflexivity |].
  cbn [str_in String.prefix]. destruct (ascii_dec a a); [| done].
  replace (String.prefix sub sub) with true; [reflexivity |].
  symmetry. rewrite <- (prefix_app sub EmptyString) at 1.
  f_equal. induction sub as [| b sub IH]; [reflexivity |].
  change (String b sub +:+ EmptyString) with (String b (sub +:+ EmptyString)).
  by rewrite <- IH.
Qed.

Lemma stopped_message_mentions query query_state reason :
  let msg := stopped_message query query_state reason in
  str_in query msg = true
  /\ str_in query_state msg = true
  /\ str_in reason msg = true.
Proof.
  unfold stopped_message. repeat split.
  - do 2 apply str_in_later. apply str_in_here.
  - do 5 apply str_in_later. apply str_in_here.
  - do 7 apply str_in_later. apply str_in_self.
Qed.

(** ** [run_query] *)

Lemma answers_app w id sts1 : forall n sts2,
  answers w id n (sts1 ++ sts2)
  <-> answers w id n sts1 /\ answers w id (n + length sts1) sts2.
Proof.
  induction sts1 as [| st sts1 IH]; intros n sts2; cbn [app answers length].
  - rewrite Nat.add_0_r. tauto.
  - rewrite IH, Nat.add_succ_r. cbn [Nat.add]. tauto.
Qed.

Section RunQuery.

Variable w : world.
Variable self : QueryAthena.
Variable query : string.

(** [run_query] is its loop between a submission and a last line. *)
Lemma run_query_loaded res fuel s s1 :
  load_conf w self query s = (Return res, s1) ->
  run_query w self fuel query s
  = (poll_loop w fuel query res None;;
     print "Query finished.";;
     ret res) s1.
Proof.
  intros Hload. unfold run_query.
  unfold mbind at 1, M_bind at 1, bind at 1.
  by rewrite Hload.
Qed.

Lemma run_query_submitted r fuel s :
  start_query_execution w query (database self) (s3_output self) = Ok r ->
  run_query w self fuel query s
  = (poll_loop w fuel query (Some r) None;;
     print "Query finished.";;
     ret (Some r))
      (after s 0 (submit_events self query (QueryExecutionId r))).
Proof.
  intros Hstart. apply run_query_loaded.
  by apply load_conf_ok.
Qed.

(** The watch up to the last fetch: after the pending statuses [sts], the
    loop is about to fetch the status that follows them. *)
Lemma run_query_pending r sts fuel s :
  start_query_execution w query (database self) (s3_output self) = Ok r ->
  answers w (QueryExecutionId r) (polls s) sts ->
  forallb pending sts = true ->
  exists qs,
    watching qs = true
    /\ run_query w self (length sts + fuel) query s
       = (poll_loop w fuel query (Some r) qs;;
          print "Query finished.";;
          ret (Some r))
           (after s (length sts)
              (submit_events self query (QueryExecutionId r)
               ++ (sts ≫= pending_events (QueryExecutionId r)))).
Proof.
  intros Hstart Hans Hp.
  destruct (poll_loop_pending w query r sts fuel None
              (after s 0 (submit_events self query (QueryExecutionId r))))
    as (qs & Hq & Heq); [done | | done |].
  { unfold after; cbn [polls]. by rewrite Nat.add_0_r. }
  exists qs. split; [done |].
  rewrite (run_query_submitted r _ s Hstart).
  unfold mbind at 1, M_bind at 1, bind at 1.
  rewrite Heq, after_after. reflexivity.
Qed.

Lemma run_query_reaches_succeeded r sts st fuel s :
  start_query_execution w query (database self) (s3_output self) = Ok r ->
  answers w (QueryExecutionId r) (polls s) (sts ++ [st]) ->
  forallb pending sts = true ->
  State st = "SUCCEEDED" ->
  length sts < fuel ->
  run_query w self fuel query s
  = (Return (Some r),
     after s (length sts + 1)
       (submit_events self query (QueryExecutionId r)
        ++ (sts ≫= pending_events (QueryExecutionId r))
        ++ [EGetQuery (QueryExecutionId r); ELogInfo (State st);
            EPrint "Query finished."])).
Proof.
  intros Hstart Hans Hp Hst Hfuel.
  apply answers_app in Hans as [Hans [Hget _]].
  replace fuel with (length sts + S (fuel - S (length sts))) by lia.
  destruct (run_query_pending r sts (S (fuel - S (length sts))) s)
    as (qs & Hq & ->); [done .. |].
  unfold mbind at 1, M_bind at 1, bind at 1.
  rewrite (poll_step_succeeded w query r _ qs st); [| done | | done].
  2: { unfold after; cbn [polls]. exact Hget. }
  run. rewrite after_after. unfold after; cbn [fs polls trace].
  by rewrite <- !(assoc_L (++)).
Qed.

(** The descriptive error.  When the first status that is neither QUEUED
    nor RUNNING is FAILED or CANCELLED and carries a reason, [run_query]
    raises an [Exception] whose message contains the query text, the state
    and the reason; no handle is returned. *)
Theorem run_query_raises_on_failed_or_cancelled r sts st reason fuel s :
  start_query_execution w query (database self) (s3_output self) = Ok r ->
  answers w (QueryExecutionId r) (polls s) (sts ++ [st]) ->
  forallb pending sts = true ->
  State st = "FAILED" \/ State st = "CANCELLED" ->
  StateChangeReason st = Some reason ->
  length sts < fuel ->
  let msg := stopped_message query (State st) reason in
  run_query w self fuel query s
  = (Raise {| exc_cls := Exception; exc_str := msg |},
     after s (length sts + 1)
       (submit_events self query (QueryExecutionId r)
        ++ (sts ≫= pending_events (QueryExecutionId r))
        ++ [EGetQuery (QueryExecutionId r); ELogInfo (State st)]))
  /\ str_in query msg = true
  /\ str_in (State st) msg = true
  /\ str_in reason msg = true
  /\ (forall res, fst (run_query w self fuel query s) <> Return res).
Proof.
  intros Hstart Hans Hp Hst Hreason Hfuel msg.
  assert (run_query w self fuel query s
          = (Raise {| exc_cls := Exception; exc_str := msg |},
             after s (length sts + 1)
               (submit_events self query (QueryExecutionId r)
                ++ (sts ≫= pending_events (QueryExecutionId r))
                ++ [EGetQuery (QueryExecutionId r); ELogInfo (State st)])))
    as Hrun.
  { apply answers_app in Hans as [Hans [Hget _]].
    replace fuel with (length sts + S (fuel - S (length sts))) by lia.
    destruct (run_query_pending r sts (S (fuel - S (length sts))) s)
      as (qs & Hq & ->); [done .. |].
    unfold mbind at 1, M_bind at 1, bind at 1.
    rewrite (poll_step_stopped w query r _ qs st reason);
      [| done | | done | done].
    2: { unfold after; cbn [polls]. exact Hget. }
    rewrite after_after. unfold after; cbn [fs polls trace].
    by rewrite <- !(assoc_L (++)). }
  destruct (stopped_message_mentions query (State st) reason)
    as (Hquery & Hstate & Hwhy).
  repeat split; try done.
  intros res. by rewrite Hrun.
Qed.

(** C2. On the statuses QUEUED, RUNNING, SUCCEEDED the call returns the
    handle after three fetches, one per status, with a sleep of one second
    after each of the first two and none after the third. *)
Theorem run_query_queued_running_succeeded r st1 st2 st3 fuel s :
  start_query_execution w query (database self) (s3_output self) = Ok r ->
  answers w (QueryExecutionId r) (polls s) [st1; st2; st3] ->
  State st1 = "QUEUED" ->
  State st2 = "RUNNING" ->
  State st3 = "SUCCEEDED" ->
  3 <= fuel ->
  run_query w self fuel query s
  = (Return (Some r),
     {| fs := fs s;
        polls := polls s + 3;
        trace :=
          trace s
          ++ [EStartQuery query (database self) (s3_output self);
              EPrint ("Execution ID: " +:+ QueryExecutionId r);
              EGetQuery (QueryExecutionId r); ELogInfo "QUEUED"; ESleep 1;
              EGetQuery (QueryExecutionId r); ELogInfo "RUNNING"; ESleep 1;
              EGetQuery (QueryExecutionId r); ELogInfo "SUCCEEDED";
              EPrint "Query finished."] |}).
Proof.
  intros Hstart Hans H1 H2 H3 Hfuel.
  rewrite (run_query_reaches_succeeded r [st1; st2] st3 fuel s);
    [| done | done | | done | cbn [length]; lia].
  - unfold after, submit_events, pending_events.
    cbn. by rewrite H1, H2, H3.
  - unfold pending. cbn [forallb]. rewrite H1, H2. by vm_compute.
Qed.

(** C8. After a failed submission, that is when [load_conf] gives [None],
    [run_query] never returns: the first turn of the loop subscripts [None]
    and raises a [TypeError], before any status is fetched. *)
Theorem run_query_after_failed_submission fuel s s1 :
  load_conf w self query s = (Return None, s1) ->
  (forall res, fst (run_query w self fuel query s) <> Return res)
  /\ (0 < fuel ->
      run_query w self fuel query s
      = (Raise {| exc_cls := TypeError;
                  exc_str := "'NoneType' object is not subscriptable" |},
         s1)).
Proof.
  intros Hload.
  rewrite (run_query_loaded None fuel s s1 Hload).
  destruct fuel as [| fuel];
    cbn [poll_loop watching py_eq is_None subscript_QueryExecutionId]; run.
  - split; [done | lia].
  - split; [done | by intros _].
Qed.

(** C9. When the first status that is neither QUEUED nor RUNNING lies
    outside the five states of the service, [run_query] sleeps once more
    after that fetch, leaves the loop and returns the handle of the
    submission as it does on SUCCEEDED; nothing is raised. *)
Theorem run_query_returns_on_unknown_state r sts st fuel s :
  start_query_execution w query (database self) (s3_output self) = Ok r ->
  answers w (QueryExecutionId r) (polls s) (sts ++ [st]) ->
  forallb pending sts = true ->
  State st ∉ vocabulary ->
  length sts + 1 < fuel ->
  run_query w self fuel query s
  = (Return (Some r),
     after s (length sts + 1)
       (submit_events self query (QueryExecutionId r)
        ++ (sts ≫= pending_events (QueryExecutionId r))
        ++ [EGetQuery (QueryExecutionId r); ELogInfo (State st); ESleep 1;
            EPrint "Query finished."])).
Proof.
  intros Hstart Hans Hp Hst Hfuel.
  apply answers_app in Hans as [Hans [Hget _]].
  replace fuel with (length sts + S (S (fuel - S (S (length sts))))) by lia.
  destruct (run_query_pending r sts (S (S (fuel - S (S (length sts))))) s)
    as (qs & Hq & ->); [done .. |].
  unfold mbind at 1, M_bind at 1, bind at 1.
  rewrite (poll_step_unknown w query r _ qs st); [| done | | done].
  2: { unfold after; cbn [polls]. exact Hget. }
  run. rewrite after_after. unfold after; cbn [fs polls trace].
  by rewrite <- !(assoc_L (++)).
Qed.

End RunQuery.

(** ** [process_result] *)

Lemma for_chunk_in_ok cs : forall acc s,
  for_chunk_in (map Ok cs) acc s = (Return (acc ++ cs), s).
Proof.
  induction cs as [| c cs IH]; intros acc s; cbn [map for_chunk_in].
  - by rewrite app_nil_r.
  - rewrite IH. unfold chunk_processing. by rewrite <- (assoc_L (++)).
Qed.

Lemma for_chunk_in_fails cs e rest : forall acc s,
  for_chunk_in (map Ok cs ++ Fails e :: rest) acc s = (Raise e, s).
Proof.
  induction cs as [| c cs IH]; intros acc s; cbn [map app for_chunk_in].
  - done.
  - apply IH.
Qed.

(** An iterator yields chunks to its end, or chunks up to a first error. *)
Lemma reader_cases (items : list (reply DataFrame)) :
  (exists cs, items = map Ok cs)
  \/ (exists cs e rest, items = map Ok cs ++ Fails e :: rest).
Proof.
  induction items as [| [c | e] items IH].
  - left. by exists [].
  - destruct IH as [(cs & ->) | (cs & e & rest & ->)].
    + left. by exists (c :: cs).
    + right. by exists (c :: cs), e, rest.
  - right. by exists [], e, items.
Qed.

Lemma pd_concat_stateless objs s :
  exists o, pd_concat objs s = (o, s) /\ o <> OutOfFuel.
Proof. destruct objs; eexists; by split. Qed.

Lemma concat_without_rows cs :
  Forall (fun c => rows c = []) cs -> concat (map rows cs) = [].
Proof.
  induction 1 as [| c cs Hc _ IH]; [done |].
  cbn [map concat]. by rewrite Hc, IH.
Qed.

Section Assembly.

Variable w : world.
Variable self : QueryAthena.
Variable r : StartQueryExecutionOutput.

Lemma read_and_concat_open_error f body e s :
  fs s !! f = Some body ->
  read_csv w body 10000000 = Fails e ->
  read_and_concat w f s = (Raise e, s).
Proof.
  intros Hfile Hread. unfold read_and_concat, pd_read_csv. run.
  by rewrite Hfile, Hread.
Qed.

Lemma read_and_concat_stream_error f body cs e rest s :
  fs s !! f = Some body ->
  read_csv w body 10000000 = Ok (map Ok cs ++ Fails e :: rest) ->
  read_and_concat w f s = (Raise e, s).
Proof.
  intros Hfile Hread. unfold read_and_concat, pd_read_csv. run.
  rewrite Hfile, Hread. run. by rewrite for_chunk_in_fails.
Qed.

Lemma read_and_concat_chunks f body cs s :
  fs s !! f = Some body ->
  read_csv w body 10000000 = Ok (map Ok cs) ->
  read_and_concat w f s = pd_concat cs s.
Proof.
  intros Hfile Hread. unfold read_and_concat, pd_read_csv. run.
  rewrite Hfile, Hread. run. rewrite for_chunk_in_ok. cbn [app].
  by destruct (pd_concat cs s) as [[] ?].
Qed.

Lemma read_and_concat_stateless f body s :
  fs s !! f = Some body ->
  exists o, read_and_concat w f s = (o, s) /\ o <> OutOfFuel.
Proof.
  intros Hfile.
  destruct (read_csv w body 10000000) as [items | e] eqn:Hread.
  - destruct (reader_cases items) as [(cs & ->) | (cs & e & rest & ->)].
    + rewrite (read_and_concat_chunks f body cs s Hfile Hread).
      apply pd_concat_stateless.
    + exists (Raise e). split; [| done].
      by apply (read_and_concat_stream_error f body cs e rest).
  - exists (Raise e). split; [| done].
    by apply (read_and_concat_open_error f body).
Qed.

(** Once the blob is stored, [process_result] gives what its second [try]
    gives and leaves the state without the scratch file. *)
Lemma process_result_fetched body o s :
  download_file w (s3_bucket self) (scratch r) = Ok body ->
  read_and_concat w (scratch r) (downloaded self r body s)
  = (o, downloaded self r body s) ->
  o <> OutOfFuel ->
  process_result w self (Some r) s = (table_of o, cleaned self r s).
Proof.
  intros Hget Hbody Hfuel.
  unfold process_result, s3_download_file.
  cbn [subscript_QueryExecutionId]. run.
  fold (scratch r). rewrite Hget. run.
  fold (download_event self r). fold (downloaded self r body s).
  rewrite Hbody.
  unfold os_remove, downloaded, cleaned; cbn [fs polls trace].
  rewrite lookup_insert_eq, delete_insert_eq, <- (assoc_L (++)).
  by destruct o.
Qed.

Lemma downloaded_file body s :
  fs (downloaded self r body s) !! scratch r = Some body.
Proof. unfold downloaded; cbn [fs]. apply lookup_insert_eq. Qed.

Lemma process_result_download_first res_s :
  exists tl,
    trace (snd (process_result w self (Some r) res_s))
    = trace res_s ++ download_event self r :: tl.
Proof.
  destruct (download_file w (s3_bucket self) (scratch r))
    as [body | e] eqn:Hget.
  - destruct (read_and_concat_stateless (scratch r) body
                (downloaded self r body res_s) (downloaded_file body res_s))
      as (o & Hbody & Hfuel).
    rewrite (process_result_fetched body o res_s Hget Hbody Hfuel).
    by exists [ERemove (scratch r)].
  - unfold process_result, s3_download_file.
    cbn [subscript_QueryExecutionId]. run.
    fold (scratch r). rewrite Hget. run.
    fold (download_event self r).
    destruct (exc_cls e) as [| | | | | response |]; try by exists [].
    destruct (String.eqb (Code (Error response)) "404"); run;
      rewrite <- (assoc_L (++)); by eexists.
Qed.

(** C3 (as amended). When the download fails with a [ClientError] of code
    404, [process_result] prints a line and returns [None], no table;
    nothing is raised and no file is touched. *)
Theorem process_result_not_found_gives_None e response s :
  download_file w (s3_bucket self) (scratch r) = Fails e ->
  exc_cls e = ClientError response ->
  Code (Error response) = "404" ->
  process_result w self (Some r) s
  = (Return None,
     after s 0
       [download_event self r;
        EPrint ("Simpson export file not found at %s. " +:+ scratch r)]).
Proof.
  intros Hget Hcls Hcode.
  unfold process_result, s3_download_file.
  cbn [subscript_QueryExecutionId]. run.
  fold (scratch r). rewrite Hget. run. rewrite Hcls, Hcode.
  rewrite String.eqb_refl. run.
  unfold after, download_event; cbn [fs polls trace].
  by rewrite Nat.add_0_r, <- (assoc_L (++)).
Qed.

(** C5. Once the blob is downloaded, [process_result] ends by returning a
    table or by raising, and in both cases the scratch file is gone; an
    error of the parser, raised on opening the file or in the middle of
    the chunks, is the error the caller gets. *)
Theorem process_result_removes_scratch_file body s :
  download_file w (s3_bucket self) (scratch r) = Ok body ->
  let out := process_result w self (Some r) s in
  fs (snd out) !! scratch r = None
  /\ ((exists df, fst out = Return (Some df)) \/ (exists e, fst out = Raise e))
  /\ (forall e, read_csv w body 10000000 = Fails e -> fst out = Raise e)
  /\ (forall cs e rest,
        read_csv w body 10000000 = Ok (map Ok cs ++ Fails e :: rest) ->
        fst out = Raise e).
Proof.
  intros Hget out.
  destruct (read_and_concat_stateless (scratch r) body
              (downloaded self r body s) (downloaded_file body s))
    as (o & Hbody & Hfuel).
  assert (out = (table_of o, cleaned self r s)) as Hout
    by (by apply process_result_fetched with body).
  rewrite Hout; cbn [fst snd].
  split; [| split; [| split]].
  - unfold cleaned; cbn [fs]. apply lookup_delete_eq.
  - destruct o as [df | e |]; [left | right |]; by eauto.
  - intros e Hread.
    rewrite (read_and_concat_open_error (scratch r) body e _
               (downloaded_file body s) Hread) in Hbody.
    by injection Hbody as <-.
  - intros cs e rest Hread.
    rewrite (read_and_concat_stream_error (scratch r) body cs e rest _
               (downloaded_file body s) Hread) in Hbody.
    by injection Hbody as <-.
Qed.

(** C6. When the parser yields the chunks [cs] (at least one) and no
    error, [chunk_processing] leaves each chunk as it is, and the table
    returned holds the rows of the chunks one after the other in the order
    they were read; its number of rows is the sum of theirs. *)
Theorem process_result_concatenates_chunks body cs s :
  download_file w (s3_bucket self) (scratch r) = Ok body ->
  read_csv w body 10000000 = Ok (map Ok cs) ->
  cs <> [] ->
  map chunk_processing cs = cs
  /\ exists df,
       process_result w self (Some r) s
       = (Return (Some df), cleaned self r s)
       /\ rows df = concat (map rows cs)
       /\ nrows df = sum_list (map nrows cs).
Proof.
  intros Hget Hread Hcs. split.
  - unfold chunk_processing. apply map_id.
  - destruct cs as [| c cs']; [done |].
    eexists. split; [| split].
    + apply (process_result_fetched body (Return _) s Hget); [| done].
      rewrite (read_and_concat_chunks (scratch r) body (c :: cs') _
                 (downloaded_file body s) Hread).
      reflexivity.
    + reflexivity.
    + unfold nrows; cbn [rows].
      generalize (c :: cs'). intros l.
      induction l as [| d l IH]; [done |].
      cbn [map concat sum_list sum_list_with].
      by rewrite length_app, IH.
Qed.

(** C10 (as amended). A downloaded blob without data rows.  When the
    reader raises on opening it, as it does on an empty file,
    [process_result] raises that error.  When the reader yields chunks
    that all have no row, as the one chunk it yields on a file that is a
    header only, [process_result] raises nothing and returns a table
    without rows.  The scratch file is removed in both cases. *)
Theorem process_result_on_blob_without_rows body s :
  download_file w (s3_bucket self) (scratch r) = Ok body ->
  (forall e,
      read_csv w body 10000000 = Fails e ->
      process_result w self (Some r) s = (Raise e, cleaned self r s))
  /\ (forall cs,
        read_csv w body 10000000 = Ok (map Ok cs) ->
        cs <> [] ->
        Forall (fun c => rows c = []) cs ->
        exists df,
          process_result w self (Some r) s
          = (Return (Some df), cleaned self r s)
          /\ nrows df = 0)
  /\ fs (cleaned self r s) !! scratch r = None.
Proof.
  intros Hget. split; [| split].
  - intros e Hread.
    apply (process_result_fetched body (Raise e) s Hget); [| done].
    apply (read_and_concat_open_error (scratch r) body e _
             (downloaded_file body s) Hread).
  - intros cs Hread Hcs Hrows.
    destruct cs as [| c cs']; [done |].
    eexists. split.
    + apply (process_result_fetched body (Return _) s Hget); [| done].
      rewrite (read_and_concat_chunks (scratch r) body (c :: cs') _
                 (downloaded_file body s) Hread).
      reflexivity.
    + unfold nrows; cbn [rows]. by rewrite (concat_without_rows _ Hrows).
  - unfold cleaned; cbn [fs]. apply lookup_delete_eq.
Qed.

End Assembly.

(** ** From the watch to the download *)

Section Handle.

Variable w : world.
Variable self : QueryAthena.
Variable query : string.

(** C7. When the watch reaches SUCCEEDED, [run_query] returns the very
    response the submission gave and touches no file; and
    [process_result] on that response starts by asking the blob store for
    the key made of its [QueryExecutionId] followed by [.csv], to be stored
    under that same name. *)
Theorem run_query_returns_submitted_handle r sts st fuel s :
  start_query_execution w query (database self) (s3_output self) = Ok r ->
  answers w (QueryExecutionId r) (polls s) (sts ++ [st]) ->
  forallb pending sts = true ->
  State st = "SUCCEEDED" ->
  length sts < fuel ->
  fst (run_query w self fuel query s) = Return (Some r)
  /\ fs (snd (run_query w self fuel query s)) = fs s
  /\ forall s2, exists tl,
       trace (snd (process_result w self (Some r) s2))
       = trace s2
         ++ EDownload (s3_bucket self)
              (QueryExecutionId r +:+ ".csv")
              (QueryExecutionId r +:+ ".csv")
            :: tl.
Proof.
  intros Hstart Hans Hp Hst Hfuel.
  rewrite (run_query_reaches_succeeded w self query r sts st fuel s)
    by done.
  repeat split.
  intros s2. apply process_result_download_first.
Qed.

End Handle.

(** ** The statements on the sample worlds *)

Lemma load_conf_swallows_submission_error_witness :
  load_conf Sample.refused Sample.runner "SELECT 1" Sample.start
  = (Return None,
     after Sample.start 0
       [EStartQuery "SELECT 1" "db" "s3://results-bucket/out/";
        EPrint (exc_str Sample.refusal)]).
Proof.
  apply (load_conf_swallows_submission_error
           Sample.refused Sample.runner "SELECT 1" Sample.refusal
           Sample.start).
  reflexivity.
Defined.

Lemma run_query_raises_on_failed_or_cancelled_witness :
  fst (run_query Sample.denied Sample.runner 2 "SELECT 1" Sample.start)
  = Raise {| exc_cls := Exception;
             exc_str := stopped_message "SELECT 1" "FAILED"
                          "Insufficient permissions" |}
  /\ str_in "Insufficient permissions"
       (stopped_message "SELECT 1" "FAILED" "Insufficient permissions")
     = true.
Proof.
  destruct (run_query_raises_on_failed_or_cancelled
              Sample.denied Sample.runner "SELECT 1" Sample.handle
              [Sample.queued] Sample.failed "Insufficient permissions"
              2 Sample.start)
    as (Hrun & _ & _ & Hwhy & _).
  - reflexivity.
  - cbn. auto.
  - reflexivity.
  - left. reflexivity.
  - reflexivity.
  - cbn. lia.
  - split; [by rewrite Hrun | exact Hwhy].
Defined.

Lemma run_query_queued_running_succeeded_witness :
  fst (run_query Sample.smooth Sample.runner 3 "SELECT 1" Sample.start)
  = Return (Some Sample.handle)
  /\ polls (snd (run_query Sample.smooth Sample.runner 3 "SELECT 1"
                   Sample.start)) = 3.
Proof.
  rewrite (run_query_queued_running_succeeded
             Sample.smooth Sample.runner "SELECT 1" Sample.handle
             Sample.queued Sample.running Sample.succeeded 3 Sample.start).
  - split; reflexivity.
  - reflexivity.
  - cbn. auto.
  - reflexivity.
  - reflexivity.
  - reflexivity.
  - lia.
Defined.

Lemma run_query_after_failed_submission_witness :
  run_query Sample.refused Sample.runner 1 "SELECT 1" Sample.start
  = (Raise {| exc_cls := TypeError;
              exc_str := "'NoneType' object is not subscriptable" |},
     after Sample.start 0
       [EStartQuery "SELECT 1" "db" "s3://results-bucket/out/";
        EPrint (exc_str Sample.refusal)]).
Proof.
  apply (run_query_after_failed_submission
           Sample.refused Sample.runner "SELECT 1" 1 Sample.start).
  - reflexivity.
  - lia.
Defined.

Lemma run_query_returns_on_unknown_state_witness :
  fst (run_query Sample.odd Sample.runner 3 "SELECT 1" Sample.start)
  = Return (Some Sample.handle).
Proof.
  rewrite (run_query_returns_on_unknown_state
             Sample.odd Sample.runner "SELECT 1" Sample.handle
             [Sample.running] Sample.paused 3 Sample.start).
  - reflexivity.
  - reflexivity.
  - cbn. auto.
  - reflexivity.
  - unfold vocabulary. intros H.
    repeat (apply elem_of_cons in H as [H | H]; [discriminate H |]).
    by apply elem_of_nil in H.
  - cbn. lia.
Defined.

Lemma run_query_returns_submitted_handle_witness :
  fst (run_query Sample.smooth Sample.runner 3 "SELECT 1" Sample.start)
  = Return (Some Sample.handle)
  /\ exists tl,
       trace (snd (process_result Sample.smooth Sample.runner
                     (Some Sample.handle) Sample.start))
       = EDownload "results-bucket" "q-1.csv" "q-1.csv" :: tl.
Proof.
  destruct (run_query_returns_submitted_handle
              Sample.smooth Sample.runner "SELECT 1" Sample.handle
              [Sample.queued; Sample.running] Sample.succeeded
              3 Sample.start)
    as (Hres & _ & Hkey).
  - reflexivity.
  - cbn. auto.
  - reflexivity.
  - reflexivity.
  - cbn. lia.
  - split; [exact Hres | exact (Hkey Sample.start)].
Defined.

(** C3 (as stated) fails: on a download that ends in a 404 the call
    returns [None], which is no table, so no table without rows either. *)
Lemma process_result_not_found_is_no_table :
  download_file Sample.denied "results-bucket" "q-1.csv"
  = Fails Sample.not_found
  /\ fst (process_result Sample.denied Sample.runner (Some Sample.handle)
            Sample.start) = Return None
  /\ ~ (exists df,
          fst (process_result Sample.denied Sample.runner
                 (Some Sample.handle) Sample.start) = Return (Some df)
          /\ nrows df = 0).
Proof.
  split; [reflexivity |]. split; [reflexivity |].
  intros (df & Hout & _). vm_compute in Hout. discriminate Hout.
Qed.

Lemma process_result_not_found_gives_None_witness :
  fst (process_result Sample.denied Sample.runner (Some Sample.handle)
         Sample.start) = Return None.
Proof.
  rewrite (process_result_not_found_gives_None
             Sample.denied Sample.runner Sample.handle Sample.not_found
             {| Error := {| Code := "404" |} |} Sample.start);
    reflexivity.
Defined.

Lemma process_result_removes_scratch_file_witness :
  fs (snd (process_result Sample.broken Sample.runner (Some Sample.handle)
             Sample.start)) !! "q-1.csv" = None
  /\ fst (process_result Sample.broken Sample.runner (Some Sample.handle)
            Sample.start) = Raise Sample.parse_error.
Proof.
  destruct (process_result_removes_scratch_file
              Sample.broken Sample.runner Sample.handle
              Sample.bad_body Sample.start)
    as (Hgone & _ & _ & Hmid).
  - reflexivity.
  - split; [exact Hgone |].
    apply (Hmid [Sample.chunk1] Sample.parse_error []). reflexivity.
Defined.

Lemma process_result_concatenates_chunks_witness :
  exists df,
    fst (process_result Sample.smooth Sample.runner (Some Sample.handle)
           Sample.start) = Return (Some df)
    /\ rows df = rows Sample.chunk1 ++ rows Sample.chunk2
    /\ nrows df = 3.
Proof.
  destruct (process_result_concatenates_chunks
              Sample.smooth Sample.runner Sample.handle
              Sample.body [Sample.chunk1; Sample.chunk2]
              Sample.start)
    as (_ & df & Hout & Hrows & Hcount).
  - reflexivity.
  - reflexivity.
  - discriminate.
  - exists df. rewrite Hout, Hrows, Hcount. by repeat split.
Defined.

(** C10 (as stated) fails: on a result file that is a header only, the
    reader yields one chunk without rows and the call returns that table
    without rows; it raises nothing. *)
Lemma process_result_header_only_returns_table :
  download_file Sample.header_only_file "results-bucket" "q-1.csv"
  = Ok Sample.header_only
  /\ read_csv Sample.header_only_file Sample.header_only 10000000
     = Ok [Ok Sample.no_rows]
  /\ nrows Sample.no_rows = 0
  /\ process_result Sample.header_only_file Sample.runner
       (Some Sample.handle) Sample.start
     = (Return (Some Sample.no_rows),
        cleaned Sample.runner Sample.handle Sample.start)
  /\ ~ (exists e,
          fst (process_result Sample.header_only_file Sample.runner
                 (Some Sample.handle) Sample.start) = Raise e).
Proof.
  assert (process_result Sample.header_only_file Sample.runner
            (Some Sample.handle) Sample.start
          = (Return (Some Sample.no_rows),
             cleaned Sample.runner Sample.handle Sample.start)) as Hout
    by (by vm_compute).
  repeat split; try done.
  intros (e & He). rewrite Hout in He. discriminate He.
Qed.

Lemma process_result_on_blob_without_rows_witness :
  fst (process_result Sample.empty_file Sample.runner (Some Sample.handle)
         Sample.start) = Raise Sample.empty_data_error
  /\ exists df,
       fst (process_result Sample.header_only_file Sample.runner
              (Some Sample.handle) Sample.start) = Return (Some df)
       /\ nrows df = 0.
Proof.
  split.
  - destruct (process_result_on_blob_without_rows
                Sample.empty_file Sample.runner Sample.handle EmptyString
                Sample.start)
      as (Hopen & _ & _); [reflexivity |].
    rewrite (Hopen Sample.empty_data_error); reflexivity.
  - destruct (process_result_on_blob_without_rows
                Sample.header_only_file Sample.runner Sample.handle
                Sample.header_only Sample.start)
      as (_ & Hrows & _); [reflexivity |].
    destruct (Hrows [Sample.no_rows]) as (df & Hout & Hcount).
    + reflexivity.
    + discriminate.
    + repeat constructor.
    + exists df. rewrite Hout. by split.
Defined.

(** C1 (a defect of the code). On the answers QUEUED then FAILED, the
    latter without [StateChangeReason], [run_query] does not raise its
    descriptive error: building the message raises the [KeyError] of the
    subscript of line 63, whose text holds neither the query nor the
    state. *)
Lemma run_query_failed_without_reason_loses_message :
  answers Scenario.mute "q-1" 0
    [Sample.queued; {| State := "FAILED"; StateChangeReason := None |}]
  /\ run_query Scenario.mute Sample.runner 2 "SELECT 1" Sample.start
     = (Raise {| exc_cls := KeyError; exc_str := "'StateChangeReason'" |},
        after Sample.start 2
          [EStartQuery "SELECT 1" "db" "s3://results-bucket/out/";
           EPrint "Execution ID: q-1";
           EGetQuery "q-1"; ELogInfo "QUEUED"; ESleep 1;
           EGetQuery "q-1"; ELogInfo "FAILED"])
  /\ str_in "SELECT 1" "'StateChangeReason'" = false
  /\ str_in "FAILED" "'StateChangeReason'" = false.
Proof. repeat split; by vm_compute. Qed.

(** ** End to end

    [create_query] on the sample world whose query succeeds at the third
    fetch: the fixed query is submitted, watched, and its three rows come
    back in one table; the scratch file is gone. *)
Example create_query_sample :
  let out := create_query Sample.smooth Sample.runner 3 Sample.start in
  fst out
  = Return (Some {| columns := ["a"; "b"];
                    rows := [Sample.row "1" "2"; Sample.row "3" "4";
                             Sample.row "5" "6"] |})
  /\ fs (snd out) !! "q-1.csv" = None
  /\ polls (snd out) = 3.
Proof. by vm_compute. Qed.

(** ** Submission: every case *)

Section SubmissionCases.

Variable w : world.
Variable self : QueryAthena.

Lemma load_conf_run query s :
  load_conf w self query s
  = (Return
       match start_query_execution w query (database self) (s3_output self)
       with
       | Ok r => Some r
       | Fails _ => None
       end,
     after s 0
       [EStartQuery query (database self) (s3_output self);
        EPrint
          match start_query_execution w query (database self) (s3_output self)
          with
          | Ok r => "Execution ID: " +:+ QueryExecutionId r
          | Fails e => exc_str e
          end]).
Proof.
  unfold load_conf, athena_start_query_execution, after. run.
  destruct (start_query_execution w query (database self) (s3_output self));
    run; by rewrite Nat.add_0_r, <- (assoc_L (++)).
Qed.

(** [load_conf] never raises and never runs short: whatever the service
    does, it returns.  When the call gives a response, that response is
    what it returns, after printing its [QueryExecutionId]; when the call
    raises, it returns [None], after printing the exception.  In both
    cases it makes one submission, for the database and the output
    location of the object, prints one line, fetches no status and touches
    no file. *)
Theorem load_conf_never_raises query s :
  (exists res, fst (load_conf w self query s) = Return res)
  /\ (forall r,
        start_query_execution w query (database self) (s3_output self)
        = Ok r ->
        load_conf w self query s
        = (Return (Some r),
           after s 0
             [EStartQuery query (database self) (s3_output self);
              EPrint ("Execution ID: " +:+ QueryExecutionId r)]))
  /\ (forall e,
        start_query_execution w query (database self) (s3_output self)
        = Fails e ->
        load_conf w self query s
        = (Return None,
           after s 0
             [EStartQuery query (database self) (s3_output self);
              EPrint (exc_str e)])).
Proof.
  rewrite load_conf_run.
  split; [by eexists |].
  split; intros x Hstart; by rewrite Hstart.
Qed.

End SubmissionCases.

(** ** The watch: every case *)

Section WatchCases.

Variable w : world.
Variable query : string.

Ltac run_in H :=
  unfold mbind, M_bind, mret, M_ret, bind, ret, raise, out_of_fuel,
    try_except, try_finally, of_reply, print, logger_info, time_sleep, emit
    in H;
  cbn [fst snd fs polls trace orb andb] in H.

Ltac poll Hget :=
  cbn [poll_loop subscript_QueryExecutionId];
  unfold athena_get_query_execution; run;
  rewrite Hget; run; cbn [status_reply QueryExecution Status].

Lemma poll_step_unexplained r fuel qs st s :
  watching qs = true ->
  get_query_execution w (QueryExecutionId r) (polls s)
  = Ok (status_reply st) ->
  State st = "FAILED" \/ State st = "CANCELLED" ->
  StateChangeReason st = None ->
  poll_loop w (S fuel) query (Some r) qs s
  = (Raise {| exc_cls := KeyError; exc_str := "'StateChangeReason'" |},
     after s 1 [EGetQuery (QueryExecutionId r); ELogInfo (State st)]).
Proof.
  intros Hq Hget Hst Hreason. unfold watching in Hq.
  cbn [poll_loop]. rewrite Hq. poll Hget.
  assert (String.eqb (State st) "FAILED"
          || String.eqb (State st) "CANCELLED" = true) as ->.
  { destruct Hst as [-> | ->]; by vm_compute. }
  unfold subscript_StateChangeReason. rewrite Hreason. run.
  unfold after; cbn [fs polls trace].
  by rewrite Nat.add_1_r, <- !(assoc_L (++)).
Qed.

Lemma poll_step_refused r fuel qs e s :
  watching qs = true ->
  get_query_execution w (QueryExecutionId r) (polls s) = Fails e ->
  poll_loop w (S fuel) query (Some r) qs s
  = (Raise e, after s 1 [EGetQuery (QueryExecutionId r)]).
Proof.
  intros Hq Hget. unfold watching in Hq.
  cbn [poll_loop]. rewrite Hq. poll Hget.
  unfold after; cbn [fs polls trace].
  by rewrite Nat.add_1_r.
Qed.

(** While the answers are QUEUED or RUNNING the loop goes on: with [fuel]
    turns it makes [fuel] fetches and is still not done. *)
Lemma poll_loop_goes_on r fuel : forall qs s,
  watching qs = true ->
  (forall n, exists st,
      get_query_execution w (QueryExecutionId r) (polls s + n)
      = Ok (status_reply st)
      /\ pending st = true) ->
  exists s',
    poll_loop w fuel query (Some r) qs s = (OutOfFuel, s')
    /\ polls s' = polls s + fuel.
Proof.
  induction fuel as [| fuel IH]; intros qs s Hq Hall.
  - exists s. split; [done | lia].
  - destruct (Hall 0) as (st & Hget & Hp).
    rewrite Nat.add_0_r in Hget.
    rewrite (poll_step_pending w query r fuel qs st s Hq Hget Hp).
    destruct (IH (Some (State st))
                (after s 1 (pending_events (QueryExecutionId r) st)))
      as (s' & Hrun & Hpolls).
    + by rewrite watching_pending.
    + intros n. destruct (Hall (S n)) as (st' & Hget' & Hp').
      exists st'. split; [| done].
      unfold after; cbn [polls].
      by replace (polls s + 1 + n) with (polls s + S n) by lia.
    + exists s'. split; [done |].
      rewrite Hpolls. unfold after; cbn [polls]. lia.
Qed.

(** The loop touches no file and fetches at most once per turn. *)
Lemma poll_loop_frame res fuel : forall qs s,
  fs (snd (poll_loop w fuel query res qs s)) = fs s
  /\ polls s <= polls (snd (poll_loop w fuel query res qs s))
     <= polls s + fuel.
Proof.
  induction fuel as [| fuel IH]; intros qs s; cbn [poll_loop].
  - run. split; [done | lia].
  - destruct (py_eq qs "QUEUED" || py_eq qs "RUNNING" || is_None qs);
      [| run; split; [done | lia]].
    destruct res as [r |]; cbn [subscript_QueryExecutionId]; run;
      [| split; [done | lia]].
    unfold athena_get_query_execution. run.
    destruct (get_query_execution w (QueryExecutionId r) (polls s))
      as [out | e]; run; [| split; [done | lia]].
    destruct (String.eqb (State (Status (QueryExecution out))) "FAILED"
              || String.eqb (State (Status (QueryExecution out)))
                   "CANCELLED").
    { unfold subscript_StateChangeReason.
      destruct (StateChangeReason (Status (QueryExecution out))); run;
        (split; [done | lia]). }
    destruct (String.eqb (State (Status (QueryExecution out))) "SUCCEEDED");
      run; [split; [done | lia] |].
    match goal with
    | |- context [poll_loop w fuel query ?res' ?qs' ?s1] =>
        destruct (IH qs' s1) as (Hfs & Hlo & Hhi);
        cbn [fs polls] in Hfs, Hlo, Hhi
    end.
    split; [done | lia].
Qed.

(** A loop that ends normally either had nothing to do, or it fetched at
    least once and the last status it fetched is conclusive. *)
Lemma poll_loop_returns res fuel : forall qs s s',
  poll_loop w fuel query res qs s = (Return tt, s') ->
  (watching qs = false /\ s' = s)
  \/ (exists r out,
        res = Some r
        /\ polls s < polls s'
        /\ get_query_execution w (QueryExecutionId r) (polls s' - 1) = Ok out
        /\ conclusive (State (Status (QueryExecution out))) = true).
Proof.
  induction fuel as [| fuel IH]; intros qs s s'; cbn [poll_loop].
  - run. discriminate.
  - fold (watching qs). destruct (watching qs) eqn:Hq;
      [| run; intros [= <-]; by left].
    intros Hrun. right.
    destruct res as [r |]; cbn [subscript_QueryExecutionId] in Hrun;
      run_in Hrun; [| discriminate].
    unfold athena_get_query_execution in Hrun. run_in Hrun.
    destruct (get_query_execution w (QueryExecutionId r) (polls s))
      as [out | e] eqn:Hget; run_in Hrun; [| discriminate].
    destruct (String.eqb (State (Status (QueryExecution out))) "FAILED"
              || String.eqb (State (Status (QueryExecution out)))
                   "CANCELLED") eqn:Hstop.
    { unfold subscript_StateChangeReason in Hrun.
      destruct (StateChangeReason (Status (QueryExecution out)));
        run_in Hrun; discriminate. }
    destruct (String.eqb (State (Status (QueryExecution out))) "SUCCEEDED")
      eqn:Hok; run_in Hrun.
    + injection Hrun as <-. cbn [polls].
      exists r, out. split; [done |]. split; [lia |].
      replace (S (polls s) - 1) with (polls s) by lia.
      split; [done |].
      apply String.eqb_eq in Hok. unfold conclusive.
      rewrite Hok. by vm_compute.
    + apply IH in Hrun as [[Hq' ->] | (r' & out' & [= <-] & Hlt & Hlast)].
      * cbn [polls]. exists r, out. split; [done |]. split; [lia |].
        replace (S (polls s) - 1) with (polls s) by lia.
        split; [done |].
        unfold watching, py_eq, is_None in Hq'.
        rewrite orb_false_r in Hq'.
        unfold conclusive.
        apply orb_false_iff in Hstop as [-> ->].
        rewrite Hq'. done.
      * cbn [polls] in Hlt. exists r, out'.
        split; [done |]. split; [lia | done].
Qed.

End WatchCases.

Lemma sleeps_app t1 t2 : sleeps (t1 ++ t2) = sleeps t1 ++ sleeps t2.
Proof. unfold sleeps. apply flat_map_app. Qed.

Lemma sleeps_pending id sts :
  sleeps (sts ≫= pending_events id) = repeat 1 (length sts).
Proof.
  induction sts as [| st sts IH]; [done |].
  change ((st :: sts) ≫= pending_events id)
    with (pending_events id st ++ (sts ≫= pending_events id)).
  rewrite sleeps_app, IH. reflexivity.
Qed.

Section RunQueryCases.

Variable w : world.
Variable self : QueryAthena.
Variable query : string.

(** A FAILED or CANCELLED status that carries no [StateChangeReason] does
    not give the descriptive error: building its message raises
    [KeyError] on the missing key, and that is what the caller gets. *)
Theorem run_query_raises_KeyError_without_reason r sts st fuel s :
  start_query_execution w query (database self) (s3_output self) = Ok r ->
  answers w (QueryExecutionId r) (polls s) (sts ++ [st]) ->
  forallb pending sts = true ->
  State st = "FAILED" \/ State st = "CANCELLED" ->
  StateChangeReason st = None ->
  length sts < fuel ->
  run_query w self fuel query s
  = (Raise {| exc_cls := KeyError; exc_str := "'StateChangeReason'" |},
     after s (length sts + 1)
       (submit_events self query (QueryExecutionId r)
        ++ (sts ≫= pending_events (QueryExecutionId r))
        ++ [EGetQuery (QueryExecutionId r); ELogInfo (State st)])).
Proof.
  intros Hstart Hans Hp Hst Hreason Hfuel.
  apply answers_app in Hans as [Hans [Hget _]].
  replace fuel with (length sts + S (fuel - S (length sts))) by lia.
  destruct (run_query_pending w self query r sts
              (S (fuel - S (length sts))) s)
    as (qs & Hq & ->); [done .. |].
  unfold mbind at 1, M_bind at 1, bind at 1.
  rewrite (poll_step_unexplained w query r _ qs st); [| done | | done ..].
  2: { unfold after; cbn [polls]. exact Hget. }
  rewrite after_after. unfold after; cbn [fs polls trace].
  by rewrite <- !(assoc_L (++)).
Qed.

(** An exception raised by a status fetch is not caught: after the pending
    answers [sts], a fetch that raises [e] makes [run_query] raise [e], with
    no further fetch, sleep or print. *)
Theorem run_query_propagates_fetch_error r sts e fuel s :
  start_query_execution w query (database self) (s3_output self) = Ok r ->
  answers w (QueryExecutionId r) (polls s) sts ->
  forallb pending sts = true ->
  get_query_execution w (QueryExecutionId r) (polls s + length sts)
  = Fails e ->
  length sts < fuel ->
  run_query w self fuel query s
  = (Raise e,
     after s (length sts + 1)
       (submit_events self query (QueryExecutionId r)
        ++ (sts ≫= pending_events (QueryExecutionId r))
        ++ [EGetQuery (QueryExecutionId r)])).
Proof.
  intros Hstart Hans Hp Hget Hfuel.
  replace fuel with (length sts + S (fuel - S (length sts))) by lia.
  destruct (run_query_pending w self query r sts
              (S (fuel - S (length sts))) s)
    as (qs & Hq & ->); [done .. |].
  unfold mbind at 1, M_bind at 1, bind at 1.
  rewrite (poll_step_refused w query r _ qs e); [| done |].
  2: { unfold after; cbn [polls]. exact Hget. }
  rewrite after_after. unfold after; cbn [fs polls trace].
  by rewrite <- !(assoc_L (++)).
Qed.

(** The watch has no bound of its own: as long as every answer is QUEUED
    or RUNNING, [run_query] has neither returned nor raised after any
    number [fuel] of turns of its loop, and it has made [fuel] fetches. *)
Theorem run_query_polls_without_bound r fuel s :
  start_query_execution w query (database self) (s3_output self) = Ok r ->
  (forall n, exists st,
      get_query_execution w (QueryExecutionId r) (polls s + n)
      = Ok (status_reply st)
      /\ pending st = true) ->
  fst (run_query w self fuel query s) = OutOfFuel
  /\ polls (snd (run_query w self fuel query s)) = polls s + fuel.
Proof.
  intros Hstart Hall.
  rewrite (run_query_submitted w self query r fuel s Hstart).
  destruct (poll_loop_goes_on w query r fuel None
              (after s 0 (submit_events self query (QueryExecutionId r))))
    as (s' & Hrun & Hpolls); [done | |].
  { intros n. unfold after; cbn [polls].
    rewrite Nat.add_0_r. apply Hall. }
  run. rewrite Hrun.
  cbn [fst snd]. split; [done |].
  rewrite Hpolls. unfold after; cbn [polls]. lia.
Qed.

(** Whatever the services answer, [run_query] leaves the local files as
    they are and makes at most one status fetch per turn of its loop. *)
Theorem run_query_touches_no_file fuel s :
  fs (snd (run_query w self fuel query s)) = fs s
  /\ polls s <= polls (snd (run_query w self fuel query s))
     <= polls s + fuel.
Proof.
  rewrite (run_query_loaded w self query _ fuel s _
             (load_conf_run w self query s)).
  run.
  match goal with
  | |- context [poll_loop w fuel query ?res None ?s1] =>
      destruct (poll_loop_frame w query res fuel None s1)
        as (Hfs & Hlo & Hhi);
      destruct (poll_loop w fuel query res None s1) as [[[] | e |] s2]
  end;
    cbn [fst snd fs polls after] in *;
    (split; [done | lia]).
Qed.

(** When [run_query] returns, what it returns is the response of the
    submission, it has fetched at least one status, and the last status it
    fetched is conclusive: none of QUEUED, RUNNING, FAILED, CANCELLED. *)
Theorem run_query_returns_only_when_conclusive fuel s res :
  fst (run_query w self fuel query s) = Return res ->
  exists r out,
    start_query_execution w query (database self) (s3_output self) = Ok r
    /\ res = Some r
    /\ polls s < polls (snd (run_query w self fuel query s))
    /\ get_query_execution w (QueryExecutionId r)
         (polls (snd (run_query w self fuel query s)) - 1) = Ok out
    /\ conclusive (State (Status (QueryExecution out))) = true.
Proof.
  rewrite (run_query_loaded w self query _ fuel s _
             (load_conf_run w self query s)).
  run.
  match goal with
  | |- context [poll_loop w fuel query ?res' None ?s1] =>
      pose proof (poll_loop_returns w query res' fuel None s1) as Hloop;
      destruct (poll_loop w fuel query res' None s1) as [[[] | e |] s2]
  end;
    cbn [fst snd]; try discriminate.
  intros [= <-].
  destruct (Hloop s2 eq_refl)
    as [[Hq _] | (r & out & Hres & Hlt & Hlast & Hend)];
    [discriminate Hq |].
  destruct (start_query_execution w query (database self) (s3_output self))
    as [r' | e]; [| discriminate Hres].
  injection Hres as ->.
  exists r, out. cbn [polls after] in *.
  rewrite Nat.add_0_r in Hlt. by repeat split.
Qed.

(** The watch sleeps one second after each QUEUED or RUNNING answer and
    not after SUCCEEDED: with [n] such answers before SUCCEEDED it makes
    [n + 1] fetches and [n] sleeps of one second each. *)
Theorem run_query_sleeps_once_per_pending r sts st fuel s :
  start_query_execution w query (database self) (s3_output self) = Ok r ->
  answers w (QueryExecutionId r) (polls s) (sts ++ [st]) ->
  forallb pending sts = true ->
  State st = "SUCCEEDED" ->
  length sts < fuel ->
  polls (snd (run_query w self fuel query s)) = polls s + length sts + 1
  /\ sleeps (trace (snd (run_query w self fuel query s)))
     = sleeps (trace s) ++ repeat 1 (length sts).
Proof.
  intros Hstart Hans Hp Hst Hfuel.
  rewrite (run_query_reaches_succeeded w self query r sts st fuel s)
    by done.
  unfold after; cbn [snd polls trace]. split; [lia |].
  rewrite !sleeps_app, sleeps_pending.
  cbn [sleeps flat_map submit_events app]. by rewrite app_nil_r.
Qed.

End RunQueryCases.

(** ** [process_result]: every case *)

Section AssemblyCases.

Variable w : world.
Variable self : QueryAthena.

(** What a failed download leads to, by the class of the exception. *)
Lemma process_result_download_failed r e s :
  download_file w (s3_bucket self) (scratch r) = Fails e ->
  process_result w self (Some r) s
  = match exc_cls e with
    | ClientError response =>
        (Return None,
         after s 0
           [download_event self r;
            EPrint
              (if String.eqb (Code (Error response)) "404"
               then "Simpson export file not found at %s. " +:+ scratch r
               else "Error " +:+ exc_str e +:+ " when trying to fetch file "
                    +:+ scratch r +:+ ".")])
    | _ => (Raise e, after s 0 [download_event self r])
    end.
Proof.
  intros Hget.
  unfold process_result, s3_download_file.
  cbn [subscript_QueryExecutionId]. run.
  fold (scratch r). rewrite Hget. run.
  fold (download_event self r).
  unfold after; cbn [fs polls trace]. rewrite Nat.add_0_r.
  destruct (exc_cls e) as [| | | | | response |]; try reflexivity.
  destruct (String.eqb (Code (Error response)) "404"); run;
    by rewrite <- (assoc_L (++)).
Qed.

(** A [ClientError] of the download whose code is not 404 is handled like
    the 404: a line with the error and the file name is printed, [None] is
    returned, nothing is raised and no file is touched. *)
Theorem process_result_other_client_error_gives_None r e response s :
  download_file w (s3_bucket self) (scratch r) = Fails e ->
  exc_cls e = ClientError response ->
  Code (Error response) <> "404" ->
  process_result w self (Some r) s
  = (Return None,
     after s 0
       [download_event self r;
        EPrint ("Error " +:+ exc_str e +:+ " when trying to fetch file "
                +:+ scratch r +:+ ".")]).
Proof.
  intros Hget Hcls Hcode.
  rewrite (process_result_download_failed r e s Hget), Hcls.
  apply String.eqb_neq in Hcode. by rewrite Hcode.
Qed.

(** An exception of the download that is no [ClientError] is not caught:
    [process_result] raises it, prints nothing and touches no file. *)
Theorem process_result_propagates_other_download_error r e s :
  download_file w (s3_bucket self) (scratch r) = Fails e ->
  is_ClientError e = false ->
  process_result w self (Some r) s
  = (Raise e, after s 0 [download_event self r]).
Proof.
  intros Hget Hcls.
  rewrite (process_result_download_failed r e s Hget).
  unfold is_ClientError in Hcls.
  by destruct (exc_cls e).
Qed.

(** On [None] in place of a handle, the subscript of line 93 raises a
    [TypeError], which the [except ClientError] clause around it lets
    through: no download is asked for and the state is left as it was. *)
Theorem process_result_without_handle s :
  process_result w self None s
  = (Raise {| exc_cls := TypeError;
              exc_str := "'NoneType' object is not subscriptable" |},
     s).
Proof. reflexivity. Qed.

(** When the download fails, for whatever reason, no file is removed: a
    file that was already there under the name of the scratch file stays. *)
Theorem process_result_failed_download_touches_no_file r e s :
  download_file w (s3_bucket self) (scratch r) = Fails e ->
  fs (snd (process_result w self (Some r) s)) = fs s.
Proof.
  intros Hget.
  rewrite (process_result_download_failed r e s Hget).
  by destruct (exc_cls e).
Qed.

(** [process_result] fetches no status, and the only local file it may
    change is the scratch file of its handle: every other path has the
    content it had, whatever the download and the parser do. *)
Theorem process_result_keeps_other_files res s path :
  (forall r, res = Some r -> path <> scratch r) ->
  fs (snd (process_result w self res s)) !! path = fs s !! path
  /\ polls (snd (process_result w self res s)) = polls s.
Proof.
  intros Hpath. destruct res as [r |]; [| done].
  specialize (Hpath r eq_refl).
  destruct (download_file w (s3_bucket self) (scratch r))
    as [body | e] eqn:Hget.
  - destruct (read_and_concat_stateless w (scratch r) body
                (downloaded self r body s) (downloaded_file self r body s))
      as (o & Hbody & Hfuel).
    rewrite (process_result_fetched w self r body o s Hget Hbody Hfuel).
    unfold cleaned; cbn [snd fs polls]. split; [| done].
    by apply lookup_delete_ne.
  - rewrite (process_result_download_failed r e s Hget).
    by destruct (exc_cls e).
Qed.

End AssemblyCases.

(** ** [create_query] *)

Section CreateQuery.

Variable w : world.
Variable self : QueryAthena.

Lemma create_query_chain fuel :
  create_query w self fuel
  = (res ← run_query w self fuel (select_query self);
     process_result w self res).
Proof. reflexivity. Qed.

(** End to end: the query [select_query] is submitted, the watch reaches
    SUCCEEDED after the pending answers [sts], the blob is downloaded and
    read in the chunks [cs].  Then [create_query] returns one table with
    the rows of the chunks in order; it has made one fetch per answer, and
    of the local files only the scratch file is affected: it is absent. *)
Theorem create_query_end_to_end r sts st body cs fuel s :
  start_query_execution w (select_query self) (database self)
    (s3_output self) = Ok r ->
  answers w (QueryExecutionId r) (polls s) (sts ++ [st]) ->
  forallb pending sts = true ->
  State st = "SUCCEEDED" ->
  download_file w (s3_bucket self) (scratch r) = Ok body ->
  read_csv w body 10000000 = Ok (map Ok cs) ->
  cs <> [] ->
  length sts < fuel ->
  exists df,
    fst (create_query w self fuel s) = Return (Some df)
    /\ rows df = concat (map rows cs)
    /\ fs (snd (create_query w self fuel s)) = delete (scratch r) (fs s)
    /\ polls (snd (create_query w self fuel s)) = polls s + length sts + 1.
Proof.
  intros Hstart Hans Hp Hst Hget Hread Hcs Hfuel.
  assert (exists df,
             rows df = concat (map rows cs)
             /\ forall s1,
                  process_result w self (Some r) s1
                  = (Return (Some df), cleaned self r s1))
    as (df & Hrows & Hdf).
  { destruct cs as [| c cs']; [done |].
    eexists. split; [| intros s1].
    2: { apply (process_result_fetched w self r body (Return _) s1 Hget);
           [| done].
         rewrite (read_and_concat_chunks w (scratch r) body (c :: cs') _
                    (downloaded_file self r body s1) Hread).
         reflexivity. }
    reflexivity. }
  exists df.
  rewrite create_query_chain.
  unfold mbind, M_bind, bind.
  rewrite (run_query_reaches_succeeded w self (select_query self)
             r sts st fuel s) by done.
  rewrite Hdf.
  cbn [fst snd cleaned after fs polls].
  repeat split; [done | lia].
Qed.

(** When the submission raises [e], [create_query] does not raise [e],
    which is only printed: it raises the [TypeError] of the subscript of
    [None] in [run_query].  No status is fetched and no download is asked
    for. *)
Theorem create_query_after_refused_submission e fuel s :
  start_query_execution w (select_query self) (database self)
    (s3_output self) = Fails e ->
  0 < fuel ->
  create_query w self fuel s
  = (Raise {| exc_cls := TypeError;
              exc_str := "'NoneType' object is not subscriptable" |},
     after s 0
       [EStartQuery (select_query self) (database self) (s3_output self);
        EPrint (exc_str e)]).
Proof.
  intros Hstart Hfuel.
  rewrite create_query_chain.
  unfold mbind at 1, M_bind at 1, bind at 1.
  pose proof (load_conf_run w self (select_query self) s) as Hload.
  rewrite Hstart in Hload.
  rewrite (run_query_loaded w self (select_query self) None fuel s _ Hload).
  destruct fuel as [| fuel]; [lia |].
  reflexivity.
Qed.

(** When the query succeeds and the blob is not found (a [ClientError] of
    code 404), [create_query] returns [None] without raising. *)
Theorem create_query_not_found_gives_None r sts st e response fuel s :
  start_query_execution w (select_query self) (database self)
    (s3_output self) = Ok r ->
  answers w (QueryExecutionId r) (polls s) (sts ++ [st]) ->
  forallb pending sts = true ->
  State st = "SUCCEEDED" ->
  download_file w (s3_bucket self) (scratch r) = Fails e ->
  exc_cls e = ClientError response ->
  Code (Error response) = "404" ->
  length sts < fuel ->
  fst (create_query w self fuel s) = Return None
  /\ fs (snd (create_query w self fuel s)) = fs s.
Proof.
  intros Hstart Hans Hp Hst Hget Hcls Hcode Hfuel.
  rewrite create_query_chain.
  unfold mbind, M_bind, bind.
  rewrite (run_query_reaches_succeeded w self (select_query self)
             r sts st fuel s) by done.
  rewrite (process_result_download_failed w self r e _ Hget), Hcls.
  by split.
Qed.

End CreateQuery.

(** ** The further statements on the sample worlds *)

Lemma run_query_raises_KeyError_without_reason_witness :
  fst (run_query Scenario.unexplained Sample.runner 2 "SELECT 1"
         Sample.start)
  = Raise {| exc_cls := KeyError; exc_str := "'StateChangeReason'" |}.
Proof.
  rewrite (run_query_raises_KeyError_without_reason
             Scenario.unexplained Sample.runner "SELECT 1" Sample.handle
             [Sample.running] Scenario.cancelled 2 Sample.start).
  - reflexivity.
  - reflexivity.
  - cbn. auto.
  - reflexivity.
  - right. reflexivity.
  - reflexivity.
  - cbn. lia.
Defined.

Lemma run_query_propagates_fetch_error_witness :
  fst (run_query Scenario.throttled Sample.runner 2 "SELECT 1"
         Sample.start)
  = Raise Scenario.throttling
  /\ polls (snd (run_query Scenario.throttled Sample.runner 2 "SELECT 1"
                   Sample.start)) = 2.
Proof.
  rewrite (run_query_propagates_fetch_error
             Scenario.throttled Sample.runner "SELECT 1" Sample.handle
             [Sample.queued] Scenario.throttling 2 Sample.start).
  - split; reflexivity.
  - reflexivity.
  - cbn. auto.
  - reflexivity.
  - reflexivity.
  - cbn. lia.
Defined.

Lemma run_query_polls_without_bound_witness :
  fst (run_query Scenario.stuck Sample.runner 7 "SELECT 1" Sample.start)
  = OutOfFuel
  /\ polls (snd (run_query Scenario.stuck Sample.runner 7 "SELECT 1"
                   Sample.start)) = 7.
Proof.
  apply (run_query_polls_without_bound
           Scenario.stuck Sample.runner "SELECT 1" Sample.handle 7
           Sample.start).
  - reflexivity.
  - intros n. exists Sample.running. split; [| reflexivity].
    cbn. by destruct n.
Defined.

Lemma run_query_returns_only_when_conclusive_witness :
  exists r out,
    start_query_execution Sample.smooth "SELECT 1" "db"
      "s3://results-bucket/out/" = Ok r
    /\ Some Sample.handle = Some r
    /\ 0 < polls (snd (run_query Sample.smooth Sample.runner 3 "SELECT 1"
                         Sample.start))
    /\ get_query_execution Sample.smooth (QueryExecutionId r)
         (polls (snd (run_query Sample.smooth Sample.runner 3 "SELECT 1"
                        Sample.start)) - 1) = Ok out
    /\ conclusive (State (Status (QueryExecution out))) = true.
Proof.
  apply (run_query_returns_only_when_conclusive
           Sample.smooth Sample.runner "SELECT 1" 3 Sample.start
           (Some Sample.handle)).
  reflexivity.
Defined.

Lemma run_query_sleeps_once_per_pending_witness :
  polls (snd (run_query Sample.smooth Sample.runner 3 "SELECT 1"
                Sample.start)) = 3
  /\ sleeps (trace (snd (run_query Sample.smooth Sample.runner 3 "SELECT 1"
                           Sample.start))) = [1; 1].
Proof.
  apply (run_query_sleeps_once_per_pending
           Sample.smooth Sample.runner "SELECT 1" Sample.handle
           [Sample.queued; Sample.running] Sample.succeeded 3 Sample.start).
  - reflexivity.
  - cbn. auto.
  - reflexivity.
  - reflexivity.
  - cbn. lia.
Defined.

Lemma process_result_other_client_error_gives_None_witness :
  fst (process_result Scenario.forbidden Sample.runner (Some Sample.handle)
         Sample.start) = Return None.
Proof.
  rewrite (process_result_other_client_error_gives_None
             Scenario.forbidden Sample.runner Sample.handle
             Scenario.forbidden_error {| Error := {| Code := "403" |} |}
             Sample.start).
  - reflexivity.
  - reflexivity.
  - reflexivity.
  - discriminate.
Defined.

Lemma process_result_propagates_other_download_error_witness :
  fst (process_result Scenario.offline Sample.runner (Some Sample.handle)
         Sample.start) = Raise Scenario.offline_error.
Proof.
  rewrite (process_result_propagates_other_download_error
             Scenario.offline Sample.runner Sample.handle
             Scenario.offline_error Sample.start);
    reflexivity.
Defined.

Lemma process_result_failed_download_touches_no_file_witness :
  fs (snd (process_result Scenario.vanished Sample.runner
             (Some Sample.handle) Scenario.cluttered)) !! "q-1.csv"
  = Some "stale".
Proof.
  rewrite (process_result_failed_download_touches_no_file
             Scenario.vanished Sample.runner Sample.handle Sample.not_found
             Scenario.cluttered);
    reflexivity.
Defined.

Lemma process_result_keeps_other_files_witness :
  fs (snd (process_result Sample.smooth Sample.runner (Some Sample.handle)
             Scenario.cluttered)) !! "notes.txt" = Some "keep"
  /\ polls (snd (process_result Sample.smooth Sample.runner
                   (Some Sample.handle) Scenario.cluttered)) = 0.
Proof.
  apply (process_result_keeps_other_files
           Sample.smooth Sample.runner (Some Sample.handle)
           Scenario.cluttered "notes.txt").
  intros r [= <-]. discriminate.
Defined.

Lemma create_query_end_to_end_witness :
  exists df,
    fst (create_query Sample.smooth Sample.runner 3 Sample.start)
    = Return (Some df)
    /\ rows df = rows Sample.chunk1 ++ rows Sample.chunk2.
Proof.
  destruct (create_query_end_to_end
              Sample.smooth Sample.runner Sample.handle
              [Sample.queued; Sample.running] Sample.succeeded
              Sample.body [Sample.chunk1; Sample.chunk2] 3 Sample.start)
    as (df & Hout & Hrows & _).
  - reflexivity.
  - cbn. auto.
  - reflexivity.
  - reflexivity.
  - reflexivity.
  - reflexivity.
  - discriminate.
  - cbn. lia.
  - exists df. rewrite Hout, Hrows. by split.
Defined.

Lemma create_query_after_refused_submission_witness :
  fst (create_query Sample.refused Sample.runner 1 Sample.start)
  = Raise {| exc_cls := TypeError;
             exc_str := "'NoneType' object is not subscriptable" |}.
Proof.
  rewrite (create_query_after_refused_submission
             Sample.refused Sample.runner Sample.refusal 1 Sample.start).
  - reflexivity.
  - reflexivity.
  - lia.
Defined.

Lemma create_query_not_found_gives_None_witness :
  fst (create_query Scenario.vanished Sample.runner 1 Sample.start)
  = Return None.
Proof.
  apply (create_query_not_found_gives_None
           Scenario.vanished Sample.runner Sample.handle
           [] Sample.succeeded Sample.not_found
           {| Error := {| Code := "404" |} |} 1 Sample.start).
  - reflexivity.
  - cbn. auto.
  - reflexivity.
  - reflexivity.
  - reflexivity.
  - reflexivity.
  - reflexivity.
  - cbn. lia.
Defined.
